(** * EDID Calculator backend: the Gemini relay of [backend/app/main.py]

    A shallow embedding of the FastAPI service and the properties of its
    two endpoints, [GET /health] and [POST /api/gemini/analyze].

    The handler is effectful: it logs, and it performs one call to the
    Gemini service through the [google.genai] client.  Handlers are written
    in a small monad [M] that threads the state of the upstream service,
    collects the events a handler emits (log records and outbound calls, in
    the order they happen) and carries Python exceptions. *)

From Stdlib Require Import QArith.QArith_base.
From stdpp Require Import gmap strings list pretty.

Set Warnings "-register-all".
Set Default Proof Using "Type".

Local Open Scope string_scope.

(** ** Python values *)

(** [typing.Any], as far as JSON can carry it.  A float literal is kept as
    the decimal the source writes. *)
Inductive Any :=
  | ANone
  | ABool (b : bool)
  | AInt (n : Z)
  | AFloat (x : Q)
  | AStr (s : string)
  | AList (l : list Any)
  | ADict (d : gmap string Any).

(** Instances of [Exception].  [HTTPException] is FastAPI's; every other
    exception is kept by its class name and its [str()]. *)
Inductive PyException :=
  | HTTPException (status_code : nat) (detail : string)
  | Exception (cls : string) (msg : string).

(** [str(e)]; Starlette prints an [HTTPException] as [status: detail]. *)
Definition str (e : PyException) : string :=
  match e with
  | HTTPException status_code detail => pretty status_code ++ ": " ++ detail
  | Exception _ msg => msg
  end.

(** Truthiness of an [Optional[str]]: [None] and [""] are falsy. *)
Definition truthy_str (v : option string) : bool :=
  match v with
  | None | Some "" => false
  | Some _ => true
  end.

(** [repr] of a [bool] inside an f-string. *)
Definition str_bool (b : bool) : string := if b then "True" else "False".

(** [s * n] on strings. *)
Definition str_mul (s : string) (n : nat) : string :=
  String.concat "" (replicate n s).

(** [len(s)] counts code points.  A [string] holds the UTF-8 encoding of
    the Python string, in which every code point has one byte that is not
    a continuation byte [10xxxxxx]. *)
Definition continuation_byte (a : Ascii.ascii) : bool :=
  match a with
  | Ascii.Ascii _ _ _ _ _ _ false true => true
  | _ => false
  end.

Fixpoint str_len (s : string) : nat :=
  match s with
  | EmptyString => 0
  | String a s => (if continuation_byte a then 0 else 1) + str_len s
  end.

(** An [Optional[str]] inside an f-string. *)
Definition str_optional (v : option string) : string := default "None" v.

(** ** pydantic

    The models of lines 58-79 validate what they are built from, and a
    field declared [str] does not take [None]: the constructor raises a
    [ValidationError].  What [str()] gives for that error is the library's
    text, which changes with its version; it is kept as
    [validation_error model field]. *)
Class Pydantic := { validation_error : string → string → string }.

(** ** Request/Response Models (pydantic) *)

Record ChatMessage := { role : string; text : string }.

Record GeminiRequest := { history : list ChatMessage; message : string }.

Record FunctionCall := { name : string; args : gmap string Any }.

Record GeminiResponse :=
  { response_text : string; functionCall : option FunctionCall }.

(** ** The part of [google.genai] the handler touches *)

Module types.

(** The JSON schema of a tool's parameters, as the dict literals of the
    source spell it: ['type'], ['description'], ['properties']. *)
Inductive Schema :=
  | SString (description : string)
  | SNumber (description : string)
  | SObject (description : option string)
            (properties : list (string * Schema)).

Record FunctionDeclaration :=
  { fd_name : string; fd_description : string; fd_parameters : Schema }.

Record Tool := { function_declarations : list FunctionDeclaration }.

Record GenerateContentConfig :=
  { system_instruction : string; tools : list Tool; temperature : Q }.

(** What the model asks to invoke; the library declares both fields
    [Optional]. *)
Record FunctionCall :=
  { fc_name : option string; fc_args : option (gmap string Any) }.

(** A part of a reply.  The handler looks at one attribute only, and
    first asks whether the part has it at all ([hasattr]):
    [function_call = None] is a part without the attribute,
    [Some None] one whose attribute is [None]. *)
Record Part :=
  { part_text : option string;
    function_call : option (option FunctionCall) }.

Record Content := { parts : option (list Part) }.

Record Candidate := { content : option Content }.

(** [text] is a property of the library's response object; the handler
    reads it as it reads any attribute. *)
Record GenerateContentResponse :=
  { text : option string; candidates : option (list Candidate) }.

End types.

Module genai.
(** The client holds the credential it was built with. *)
Record Client := { api_key : string }.
End genai.

(** One outbound call [client.models.generate_content(model=, contents=,
    config=)], with the client it goes through. *)
Record GenerateContentCall :=
  { via : genai.Client;
    model : string;
    contents : string;
    config : types.GenerateContentConfig }.

(** ** Events of a run *)

Inductive LogLevel := INFO | ERROR.

Inductive Event :=
  | Log (level : LogLevel) (msg : string) (exc_info : bool)
  | Outbound (call : GenerateContentCall).

(** The outbound calls among the events, in order. *)
Definition outbound_calls (evs : list Event) : list GenerateContentCall :=
  omap (λ ev, match ev with Outbound c => Some c | Log _ _ _ => None end) evs.

(** ** Outcomes and the handler monad *)

Inductive Outcome (A : Type) :=
  | Returned (v : A)
  | Raised (e : PyException).
Arguments Returned {A} v.
Arguments Raised {A} e.

(** What a computation leaves behind: the state of the upstream service,
    the events it emitted, and how it ended. *)
Record Run (S A : Type) :=
  { upstream : S; emitted : list Event; outcome : Outcome A }.
Arguments upstream {S A} r.
Arguments emitted {S A} r.
Arguments outcome {S A} r.

(** ** Module state after import *)

(** A module-level name is bound or not; reading an unbound one raises
    [NameError]. *)
Inductive Binding (A : Type) :=
  | Unbound
  | Bound (v : A).
Arguments Unbound {A}.
Arguments Bound {A} v.

Record Globals :=
  { GEMINI_API_KEY : option string;
    client : Binding (option genai.Client) }.

(** Lines 41-51: the module body, run once at import.  [environ] is the
    process environment and [Client] the constructor [genai.Client], which
    may raise.  When the key is falsy, [client] is never assigned. *)
Definition module_init (environ : gmap string string)
    (Client : string → Outcome genai.Client) : list Event * Globals :=
  let GEMINI_API_KEY := environ !! "GEMINI_API_KEY" in
  if negb (truthy_str GEMINI_API_KEY) then
    ([Log ERROR "GEMINI_API_KEY environment variable not set!" false],
     {| GEMINI_API_KEY := GEMINI_API_KEY; client := Unbound |})
  else
    match Client (default "" GEMINI_API_KEY) with
    | Returned c =>
        ([Log INFO "Gemini AI client initialized successfully" false],
         {| GEMINI_API_KEY := GEMINI_API_KEY; client := Bound (Some c) |})
    | Raised e =>
        ([Log ERROR ("Failed to initialize Gemini client: " ++ str e) false],
         {| GEMINI_API_KEY := GEMINI_API_KEY; client := Bound None |})
    end.

(** ** The tool declaration and the fixed part of the outbound call *)

Definition update_edid_form : types.FunctionDeclaration :=
  let num := types.SNumber in
  {| types.fd_name := "updateEdidForm";
     types.fd_description := "Updates the EDID parameter form with the provided values. Use this when the user provides specific timing or color information to populate the form.";
     types.fd_parameters :=
       types.SObject None
         [ ("displayName", types.SString "The name of the display monitor.");
           ("pixelClock", num "Pixel clock in kHz.");
           ("hAddressable", num "Horizontal addressable pixels.");
           ("hBlanking", num "Horizontal blanking pixels.");
           ("vAddressable", num "Vertical addressable lines.");
           ("vBlanking", num "Vertical blanking lines.");
           ("refreshRate", num "The vertical refresh rate in Hz.");
           ("hFrontPorch", num "Horizontal front porch pixels.");
           ("hSyncWidth", num "Horizontal sync width pixels.");
           ("vFrontPorch", num "Vertical front porch lines.");
           ("vSyncWidth", num "Vertical sync width lines.");
           ("hImageSize", num "Horizontal image size in mm.");
           ("vImageSize", num "Vertical image size in mm.");
           ("hBorder", num "Horizontal border pixels.");
           ("vBorder", num "Vertical border lines.");
           ("colorimetry",
            types.SObject (Some "CIE 1931 color characteristics.")
              [ ("redX", num "CIE 1931 'x' coordinate for the red primary color.");
                ("redY", num "CIE 1931 'y' coordinate for the red primary color.");
                ("greenX", num "CIE 1931 'x' coordinate for the green primary color.");
                ("greenY", num "CIE 1931 'y' coordinate for the green primary color.");
                ("blueX", num "CIE 1931 'x' coordinate for the blue primary color.");
                ("blueY", num "CIE 1931 'y' coordinate for the blue primary color.");
                ("whiteX", num "CIE 1931 'x' coordinate for the display's white point.");
                ("whiteY", num "CIE 1931 'y' coordinate for the display's white point.") ]) ] |}.

Definition analyze_config : types.GenerateContentConfig :=
  {| types.system_instruction := "You are an expert assistant for embedded systems engineers, specializing in display timings and the EDID specification. Your name is 'Eddy'. Answer questions clearly, concisely, and accurately to help users understand the complexities of display standards. When a user provides EDID, timing, or colorimetry information, use the `updateEdidForm` tool to populate the form fields. Inform the user that you have updated the form.";
     types.tools := [ {| types.function_declarations := [update_edid_form] |} ];
     types.temperature := (7 # 10)%Q |}.

Definition not_configured_detail : string :=
  "Gemini API not configured. Please set GEMINI_API_KEY environment variable.".

(** [hasattr(part, 'function_call') and part.function_call]: the function
    call of a part, when the test of line 177 succeeds. *)
Definition tool_call (part : types.Part) : option types.FunctionCall :=
  match types.function_call part with
  | Some (Some fc) => Some fc
  | Some None | None => None
  end.

(** Lines 179-182: [FunctionCall(name=fc.name, args=dict(fc.args) if
    fc.args else {})]; an empty dict is falsy as [None] is.  The model
    declares [name: str] (line 72), so a function call without a name
    fails validation and the constructor raises. *)
Definition surfaced `{Pydantic} (fc : types.FunctionCall) : Outcome FunctionCall :=
  let args := match types.fc_args fc with
              | Some d => if decide (d = ∅) then ∅ else d
              | None => ∅
              end in
  match types.fc_name fc with
  | Some name => Returned {| name := name; args := args |}
  | None => Raised (Exception "ValidationError"
                      (validation_error "FunctionCall" "name"))
  end.

(** ** Handlers *)

Section Relay.

(** The upstream service: from its state and a call, its next state and
    either a reply or the exception the client raises. *)
Context {S : Type} `{Pydantic}
        (service : S → GenerateContentCall →
                   S * Outcome types.GenerateContentResponse).

(** State of the upstream, events emitted, exceptions. *)
Definition M (A : Type) : Type := S → Run S A.

#[local] Instance M_ret : MRet M :=
  λ A v s, {| upstream := s; emitted := []; outcome := Returned v |}.

#[local] Instance M_bind : MBind M :=
  λ A B f m s,
    let r := m s in
    match outcome r with
    | Returned v =>
        let r' := f v (upstream r) in
        {| upstream := upstream r';
           emitted := emitted r ++ emitted r';
           outcome := outcome r' |}
    | Raised e =>
        {| upstream := upstream r; emitted := emitted r; outcome := Raised e |}
    end.

Definition raise {A} (e : PyException) : M A :=
  λ s, {| upstream := s; emitted := []; outcome := Raised e |}.

(** A call that touches neither the upstream nor the log. *)
Definition lift {A} (o : Outcome A) : M A :=
  λ s, {| upstream := s; emitted := []; outcome := o |}.

(** [try: body / except Exception as e: handler e]. *)
Definition try_except {A} (body : M A) (handler : PyException → M A) : M A :=
  λ s,
    let r := body s in
    match outcome r with
    | Returned _ => r
    | Raised e =>
        let r' := handler e (upstream r) in
        {| upstream := upstream r';
           emitted := emitted r ++ emitted r';
           outcome := outcome r' |}
    end.

Definition logger_info (msg : string) : M () :=
  λ s, {| upstream := s; emitted := [Log INFO msg false]; outcome := Returned () |}.

Definition logger_error (msg : string) (exc_info : bool) : M () :=
  λ s, {| upstream := s; emitted := [Log ERROR msg exc_info]; outcome := Returned () |}.

(** [client.models.generate_content(...)]: the one place where the
    upstream service is contacted. *)
Definition generate_content (call : GenerateContentCall) :
    M types.GenerateContentResponse :=
  λ s, let '(s', reply) := service s call in
       {| upstream := s'; emitted := [Outbound call]; outcome := reply |}.

Variable g : Globals.

(** Reading the module-level name [client]. *)
Definition load_client : M (option genai.Client) :=
  match client g with
  | Unbound => raise (Exception "NameError" "name 'client' is not defined")
  | Bound v => mret v
  end.

(** Lines 86-95. *)
Definition health_check : M (gmap string Any) :=
  mret {[ "status" := AStr "healthy";
          "service" := AStr "edid-calculator-backend";
          "gemini_configured" :=
            ABool (bool_decide (GEMINI_API_KEY g ≠ None)) ]}.

(** Lines 176-184: the loop over the parts, left at the first part that
    carries a function call.  The [FunctionCall] is built before the line
    of line 183 is logged. *)
Fixpoint first_function_call (parts : list types.Part) : M (option FunctionCall) :=
  match parts with
  | [] => mret None
  | part :: rest =>
      match tool_call part with
      | Some fc =>
          function_call ← lift (surfaced fc);
          logger_info ("Function call detected: "
                       ++ str_optional (types.fc_name fc));;
          mret (Some function_call)
      | None => first_function_call rest
      end
  end.

(** Lines 172-184. *)
Definition extract_function_call (response : types.GenerateContentResponse) :
    M (option FunctionCall) :=
  match types.candidates response with
  | Some (candidate :: _) =>
      match types.content candidate with
      | Some content =>
          match types.parts content with
          | Some (part :: rest) => first_function_call (part :: rest)
          | Some [] | None => mret None
          end
      | None => mret None
      end
  | Some [] | None => mret None
  end.

(** The call of lines 158-166, with [contents] left open. *)
Definition analyze_call (c : genai.Client) (contents : string) :
    GenerateContentCall :=
  {| via := c;
     model := "gemini-2.0-flash-exp";
     contents := contents;
     config := analyze_config |}.

(** Lines 98-198. *)
Definition analyze_with_gemini (request : GeminiRequest) : M GeminiResponse :=
  not_configured ←
    (if negb (truthy_str (GEMINI_API_KEY g)) then mret true
     else c ← load_client; mret (negb (bool_decide (is_Some c))));
  if (not_configured : bool) then
    raise (HTTPException 500 not_configured_detail)
  else
    try_except
      (logger_info ("Received Gemini request with "
                    ++ pretty (length (history request))
                    ++ " history messages");;
       c ← load_client;
       response ←
         match c with
         | Some c => generate_content (analyze_call c (message request))
         | None => raise (Exception "AttributeError"
                            "'NoneType' object has no attribute 'models'")
         end;
       let response_text :=
         if truthy_str (types.text response)
         then default "" (types.text response) else "" in
       function_call ← extract_function_call response;
       logger_info ("Gemini response: " ++ pretty (str_len response_text)
                    ++ " chars, function_call: "
                    ++ str_bool (bool_decide (function_call ≠ None)));;
       mret {| response_text := response_text; functionCall := function_call |})
      (λ e,
         logger_error ("Error calling Gemini API: " ++ str e) true;;
         raise (HTTPException 500
                  ("Failed to process request with Gemini AI: " ++ str e))).

(** Lines 201-211. *)
Definition root : M (gmap string Any) :=
  mret {[ "service" := AStr "EDID Calculator Backend";
          "status" := AStr "running";
          "endpoints" :=
            ADict {[ "health" := AStr "/health";
                     "gemini_proxy" := AStr "/api/gemini/analyze" ]} ]}.

(** Lines 218-224. *)
Definition startup_event : M () :=
  logger_info (str_mul "=" 50);;
  logger_info "EDID Calculator Backend Starting";;
  logger_info ("Gemini API Key configured: "
               ++ str_bool (truthy_str (GEMINI_API_KEY g)));;
  logger_info (str_mul "=" 50).

(** Lines 227-230. *)
Definition shutdown_event : M () :=
  logger_info "EDID Calculator Backend Shutting Down".

End Relay.

(** ** The HTTP surface, as FastAPI maps handlers to responses *)

Record HTTPResponse := { status : nat; body : Any }.

(** A returned value is sent with status 200; an [HTTPException] with its
    own status and a [detail] body; any other exception is the server's
    plain 500. *)
Definition http_response {A} (encode : A → Any) (o : Outcome A) : HTTPResponse :=
  match o with
  | Returned v => {| status := 200; body := encode v |}
  | Raised (HTTPException status_code detail) =>
      {| status := status_code; body := ADict {[ "detail" := AStr detail ]} |}
  | Raised (Exception _ _) =>
      {| status := 500; body := AStr "Internal Server Error" |}
  end.

Definition json_FunctionCall (fc : FunctionCall) : Any :=
  ADict {[ "name" := AStr (name fc); "args" := ADict (args fc) ]}.

(** [response_model=GeminiResponse]: an absent [functionCall] is sent as
    [null]. *)
Definition json_GeminiResponse (r : GeminiResponse) : Any :=
  ADict {[ "text" := AStr (response_text r);
           "functionCall" := from_option json_FunctionCall ANone (functionCall r) ]}.

Definition GET_health {S} (g : Globals) (s : S) : HTTPResponse :=
  http_response ADict (outcome (health_check g s)).

Definition POST_api_gemini_analyze {S} `{Pydantic} service (g : Globals)
    (request : GeminiRequest) (s : S) : HTTPResponse :=
  http_response json_GeminiResponse
    (outcome (analyze_with_gemini service g request s)).

Definition GET_root {S} (s : S) : HTTPResponse :=
  http_response ADict (outcome (root s)).

(** The routes the decorators of lines 86, 98 and 201 register. *)
Inductive Method := GET | POST.

Definition app_routes : list (Method * string) :=
  [ (GET, "/health"); (POST, "/api/gemini/analyze"); (GET, "/") ].

(** The application answering analyze requests one after the other: the
    module globals are the same for each, the upstream is whatever the
    request before left, and an exception ends one response, not the
    process. *)
Fixpoint serve_all {S} `{Pydantic}
    (service : S → GenerateContentCall →
               S * Outcome types.GenerateContentResponse)
    (g : Globals) (requests : list GeminiRequest) (s : S) :
    S * list Event * list HTTPResponse :=
  match requests with
  | [] => (s, [], [])
  | request :: rest =>
      let run := analyze_with_gemini service g request s in
      let '(s', evs, responses) := serve_all service g rest (upstream run) in
      (s', (emitted run ++ evs)%list,
       http_response json_GeminiResponse (outcome run) :: responses)
  end.

(** The log records among the events, in order. *)
Definition log_records (evs : list Event) : list (LogLevel * string * bool) :=
  omap (λ ev, match ev with
              | Log level msg exc_info => Some (level, msg, exc_info)
              | Outbound _ => None
              end) evs.

(** ** Vocabulary of the statements *)

(** The handler's guard of line 108 lets the request through, with [c] as
    the client. *)
Definition configured (g : Globals) (c : genai.Client) : Prop :=
  truthy_str (GEMINI_API_KEY g) = true ∧ client g = Bound (Some c).

(** The globals the module body leaves behind. *)
Definition globals_after_import (environ : gmap string string)
    (Client : string → Outcome genai.Client) : Globals :=
  (module_init environ Client).2.

(** The parts of a candidate, none when content or parts are missing. *)
Definition candidate_parts (candidate : types.Candidate) : list types.Part :=
  match types.content candidate with
  | Some content => default [] (types.parts content)
  | None => []
  end.

(** Every function call carried by some part of some candidate of a reply,
    in order. *)
Definition reply_tool_calls (response : types.GenerateContentResponse) :
    list types.FunctionCall :=
  mjoin ((λ candidate, omap tool_call (candidate_parts candidate))
           <$> default [] (types.candidates response)).

(** The function calls of the first candidate alone. *)
Definition first_candidate_tool_calls
    (response : types.GenerateContentResponse) : list types.FunctionCall :=
  match default [] (types.candidates response) with
  | candidate :: _ => omap tool_call (candidate_parts candidate)
  | [] => []
  end.

(** The text of a reply, [""] when there is none. *)
Definition reply_text (response : types.GenerateContentResponse) : string :=
  default "" (types.text response).

(** What the loop of lines 176-184 leaves in [function_call] when the
    parts carry the function calls [calls], or the exception it ends
    with: [None] when there is none, else what the constructor makes of
    the first one. *)
Definition surfaced_first `{Pydantic}
    (calls : list types.FunctionCall) : Outcome (option FunctionCall) :=
  match calls with
  | fc :: _ =>
      match surfaced fc with
      | Returned function_call => Returned (Some function_call)
      | Raised e => Raised e
      end
  | [] => Returned None
  end.

Definition first_surfaced `{Pydantic}
    (response : types.GenerateContentResponse) : Outcome (option FunctionCall) :=
  surfaced_first (first_candidate_tool_calls response).

(** The log record of line 183, when a function call was built. *)
Definition detected_log (function_call : option FunctionCall) : list Event :=
  match function_call with
  | Some fc => [Log INFO ("Function call detected: " ++ name fc) false]
  | None => []
  end.

(** What the loop logs: nothing when the constructor raised. *)
Definition extraction_log (o : Outcome (option FunctionCall)) : list Event :=
  match o with
  | Returned function_call => detected_log function_call
  | Raised _ => []
  end.

Definition received_log (request : GeminiRequest) : Event :=
  Log INFO ("Received Gemini request with "
            ++ pretty (length (history request)) ++ " history messages") false.

Definition response_log (response_text : string)
    (function_call : option FunctionCall) : Event :=
  Log INFO ("Gemini response: " ++ pretty (str_len response_text)
            ++ " chars, function_call: "
            ++ str_bool (bool_decide (function_call ≠ None))) false.

(** How the body of the [try] ends once the service has answered: with
    the response built from the reply, or with the exception of the
    service or of the constructor. *)
Definition relayed `{Pydantic} (reply : Outcome types.GenerateContentResponse) :
    Outcome GeminiResponse :=
  match reply with
  | Returned response =>
      match first_surfaced response with
      | Returned function_call =>
          Returned {| response_text := reply_text response;
                      functionCall := function_call |}
      | Raised e => Raised e
      end
  | Raised e => Raised e
  end.

(** The record the [except] clause logs for [e], and the exception it
    raises in its place (lines 193-198). *)
Definition error_log (e : PyException) : Event :=
  Log ERROR ("Error calling Gemini API: " ++ str e) true.

Definition failure (e : PyException) : PyException :=
  HTTPException 500 ("Failed to process request with Gemini AI: " ++ str e).

(** ** Sample data

    A process environment, client constructors, an upstream that counts
    the calls it receives and always gives the same reply, and a few
    replies. *)

Definition test_environ : gmap string string :=
  {[ "GEMINI_API_KEY" := "test-key" ]}.

(** A line feed. *)
Definition nl : string := String (Ascii.ascii_of_nat 10) "".

(** The text of pydantic 2 for one field that was given [None] for a
    [str]. *)
#[global] Instance pydantic_2 : Pydantic :=
  {| validation_error model field :=
       "1 validation error for " ++ model ++ nl ++ field ++ nl
       ++ "  Input should be a valid string [type=string_type, input_value=None, input_type=NoneType]"
       ++ nl
       ++ "    For further information visit https://errors.pydantic.dev/2.11/v/string_type" |}.

Definition empty_key_environ : gmap string string :=
  {[ "GEMINI_API_KEY" := "" ]}.

Definition build_client (k : string) : Outcome genai.Client :=
  Returned {| genai.api_key := k |}.

Definition failing_client (k : string) : Outcome genai.Client :=
  Raised (Exception "ValueError" "Missing key inputs argument!").

Definition test_client : genai.Client := {| genai.api_key := "test-key" |}.

Definition test_globals : Globals := globals_after_import test_environ build_client.

Definition counting (reply : Outcome types.GenerateContentResponse) :
    nat → GenerateContentCall → nat * Outcome types.GenerateContentResponse :=
  λ n _, (Datatypes.S n, reply).

Definition request_no_history : GeminiRequest :=
  {| history := []; message := "Set pixel clock to 148500 kHz" |}.

Definition request_with_history : GeminiRequest :=
  {| history := [ {| role := "user"; text := "hello" |};
                  {| role := "model"; text := "Hi, I am Eddy." |} ];
     message := "Set pixel clock to 148500 kHz" |}.

Definition text_part (t : string) : types.Part :=
  {| types.part_text := Some t; types.function_call := Some None |}.

Definition call_part (fc : types.FunctionCall) : types.Part :=
  {| types.part_text := None; types.function_call := Some (Some fc) |}.

Definition candidate_of (parts : list types.Part) : types.Candidate :=
  {| types.content := Some {| types.parts := Some parts |} |}.

Definition pixel_clock_call : types.FunctionCall :=
  {| types.fc_name := Some "updateEdidForm";
     types.fc_args := Some {[ "pixelClock" := AInt 148500 ]} |}.

Definition refresh_rate_call : types.FunctionCall :=
  {| types.fc_name := Some "updateEdidForm";
     types.fc_args := Some {[ "refreshRate" := AInt 60 ]} |}.

Definition undeclared_call : types.FunctionCall :=
  {| types.fc_name := Some "eraseEdid"; types.fc_args := None |}.

Definition nameless_call : types.FunctionCall :=
  {| types.fc_name := None;
     types.fc_args := Some {[ "pixelClock" := AInt 148500 ]} |}.

Definition reply_two_calls : types.GenerateContentResponse :=
  {| types.text := Some "Done";
     types.candidates :=
       Some [ candidate_of [ text_part "Done";
                             call_part pixel_clock_call;
                             call_part refresh_rate_call ] ] |}.

Definition reply_text_only : types.GenerateContentResponse :=
  {| types.text := Some "EDID is 128 bytes long.";
     types.candidates :=
       Some [ candidate_of [ text_part "EDID is 128 bytes long." ] ] |}.

Definition reply_nothing : types.GenerateContentResponse :=
  {| types.text := None; types.candidates := None |}.

Definition reply_call_in_second_candidate : types.GenerateContentResponse :=
  {| types.text := Some "Done";
     types.candidates :=
       Some [ candidate_of [ text_part "Done" ];
              candidate_of [ call_part pixel_clock_call ] ] |}.

Definition reply_undeclared_tool : types.GenerateContentResponse :=
  {| types.text := None;
     types.candidates := Some [ candidate_of [ call_part undeclared_call ] ] |}.

Definition reply_nameless_call : types.GenerateContentResponse :=
  {| types.text := Some "Done";
     types.candidates :=
       Some [ candidate_of [ text_part "Done";
                             call_part nameless_call;
                             call_part refresh_rate_call ] ] |}.

Definition reply_umlaut : types.GenerateContentResponse :=
  {| types.text := Some "Größe: 60 Hz ✓";
     types.candidates :=
       Some [ candidate_of [ text_part "Größe: 60 Hz ✓";
                             call_part refresh_rate_call ] ] |}.

Definition quota_exceeded : PyException :=
  Exception "ClientError" "429 RESOURCE_EXHAUSTED".

Definition other_client : genai.Client := {| genai.api_key := "other-key" |}.

Definition other_globals : Globals :=
  globals_after_import {[ "GEMINI_API_KEY" := "other-key" ]} build_client.

Definition request_other_history : GeminiRequest :=
  {| history := [ {| role := "user"; text := "What is EDID?" |};
                  {| role := "model"; text := "A display data format." |} ];
     message := "Set pixel clock to 148500 kHz" |}.

Definition request_refresh : GeminiRequest :=
  {| history := []; message := "Refresh rate is 60 Hz" |}.

(** * Properties *)

Lemma text_or_empty (v : option string) :
  (if truthy_str v then default "" v else "") = default "" v.
Proof. by destruct v as [[|a v]|]. Qed.

(** The constructor of lines 179-182 takes a call with a name as it is,
    with an empty mapping for missing arguments, and refuses one without. *)
Lemma surfaced_eq `{Pydantic} (fc : types.FunctionCall) :
  surfaced fc =
    match types.fc_name fc with
    | Some n => Returned {| name := n; args := default ∅ (types.fc_args fc) |}
    | None => Raised (Exception "ValidationError"
                        (validation_error "FunctionCall" "name"))
    end.
Proof.
  unfold surfaced. destruct (types.fc_name fc) as [n|]; [|done].
  do 2 f_equal. destruct (types.fc_args fc) as [d|]; [|done].
  simpl. by case_decide.
Qed.

Lemma surfaced_name `{Pydantic} (fc : types.FunctionCall)
    (function_call : FunctionCall) :
  surfaced fc = Returned function_call →
  types.fc_name fc = Some (name function_call).
Proof.
  rewrite surfaced_eq. destruct (types.fc_name fc) as [n|]; [|done].
  by intros [= <-].
Qed.

Lemma outbound_calls_app (evs1 evs2 : list Event) :
  outbound_calls (evs1 ++ evs2) = (outbound_calls evs1 ++ outbound_calls evs2)%list.
Proof. apply omap_app. Qed.

Lemma outbound_calls_detected_log function_call :
  outbound_calls (detected_log function_call) = [].
Proof. by destruct function_call. Qed.

Section RelayFacts.

Context {S : Type} `{Pydantic}
        (service : S → GenerateContentCall →
                   S * Outcome types.GenerateContentResponse).

(** The loop is decided by the first function call among the parts: it
    returns what the constructor makes of it and logs once, or raises what
    the constructor raised and logs nothing; it touches nothing upstream. *)
Lemma first_function_call_run (parts : list types.Part) (s : S) :
  first_function_call parts s =
    {| upstream := s;
       emitted := extraction_log (surfaced_first (omap tool_call parts));
       outcome := surfaced_first (omap tool_call parts) |}.
Proof.
  induction parts as [|part rest IH]; [done|].
  simpl. destruct (tool_call part) as [fc|]; [|apply IH].
  unfold mbind, M_bind, lift. simpl.
  destruct (surfaced fc) as [function_call|e] eqn:Hfc; simpl; [|done].
  by rewrite (surfaced_name fc function_call Hfc).
Qed.

Lemma extract_function_call_run (response : types.GenerateContentResponse) (s : S) :
  extract_function_call response s =
    {| upstream := s;
       emitted := extraction_log (first_surfaced response);
       outcome := first_surfaced response |}.
Proof.
  unfold extract_function_call, first_surfaced, first_candidate_tool_calls,
    candidate_parts.
  destruct (types.candidates response) as [[|candidate others]|]; [done| |done].
  simpl. destruct (types.content candidate) as [content|]; [|done].
  destruct (types.parts content) as [[|part rest]|]; [done| |done].
  exact (first_function_call_run (part :: rest) s).
Qed.

(** The guard of line 108 stops every request when the key is falsy or
    the client is [None], before anything else happens. *)
Lemma analyze_not_configured (g : Globals) (request : GeminiRequest) (s : S) :
  truthy_str (GEMINI_API_KEY g) = false ∨ client g = Bound None →
  analyze_with_gemini service g request s =
    {| upstream := s; emitted := [];
       outcome := Raised (HTTPException 500 not_configured_detail) |}.
Proof.
  intros Hg. unfold analyze_with_gemini, load_client.
  destruct (truthy_str (GEMINI_API_KEY g)) eqn:Hkey; [|done].
  destruct Hg as [?|Hc]; [done|]. by rewrite Hc.
Qed.

(** Past the guard, the handler logs, performs the call, and reshapes
    the reply or converts the exception. *)
Lemma analyze_configured (g : Globals) (c : genai.Client)
    (request : GeminiRequest) (s : S) :
  configured g c →
  analyze_with_gemini service g request s =
    let call := analyze_call c (message request) in
    let '(s', reply) := service s call in
    match relayed reply with
    | Returned r =>
        {| upstream := s';
           emitted := [received_log request; Outbound call]
                      ++ detected_log (functionCall r)
                      ++ [response_log (response_text r) (functionCall r)];
           outcome := Returned r |}
    | Raised e =>
        {| upstream := s';
           emitted := [received_log request; Outbound call; error_log e];
           outcome := Raised (failure e) |}
    end.
Proof.
  intros [Hkey Hc]. unfold analyze_with_gemini, load_client.
  rewrite Hkey, Hc. simpl.
  unfold try_except, mbind, M_bind, mret, M_ret, generate_content, logger_info.
  simpl.
  destruct (service s (analyze_call c (message request))) as [s' [response|e]];
    simpl; [|done].
  rewrite extract_function_call_run. simpl.
  destruct (first_surfaced response) as [function_call|e]; simpl; [|done].
  by rewrite text_or_empty.
Qed.

(** Every way the [try] can end badly is answered with status 500. *)
Lemma analyze_configured_outcome (g : Globals) (c : genai.Client)
    (request : GeminiRequest) (s : S) :
  configured g c →
  outcome (analyze_with_gemini service g request s) =
    match relayed (service s (analyze_call c (message request))).2 with
    | Returned r => Returned r
    | Raised e => Raised (failure e)
    end.
Proof.
  intros Hg. rewrite (analyze_configured g c request s Hg). simpl.
  destruct (service s _) as [s' reply]. simpl. by destruct (relayed reply).
Qed.

End RelayFacts.

Section Claims.

Context {S : Type} `{Pydantic}
        (service : S → GenerateContentCall →
                   S * Outcome types.GenerateContentResponse).

Lemma analyze_client_unbound (g : Globals) (request : GeminiRequest) (s : S) :
  truthy_str (GEMINI_API_KEY g) = true → client g = Unbound →
  analyze_with_gemini service g request s =
    {| upstream := s; emitted := [];
       outcome := Raised (Exception "NameError" "name 'client' is not defined") |}.
Proof.
  intros Hkey Hc. unfold analyze_with_gemini, load_client.
  by rewrite Hkey, Hc.
Qed.

Lemma analyze_configured_calls (g : Globals) (c : genai.Client)
    (request : GeminiRequest) (s : S) :
  configured g c →
  outbound_calls (emitted (analyze_with_gemini service g request s)) =
    [analyze_call c (message request)].
Proof.
  intros Hg. rewrite (analyze_configured service g c request s Hg). simpl.
  destruct (service s _) as [s' reply]. destruct (relayed reply) as [r|e]; [|done].
  simpl. rewrite outbound_calls_app, outbound_calls_detected_log. done.
Qed.

(** A reply without a function call in its first candidate is relayed
    with [functionCall] left [None]. *)
Lemma relayed_no_tool_call (response : types.GenerateContentResponse) :
  first_candidate_tool_calls response = [] →
  relayed (Returned response) =
    Returned {| response_text := reply_text response; functionCall := None |}.
Proof. unfold relayed, first_surfaced. by intros ->. Qed.

(** A reply whose first candidate carries function calls is relayed as
    the constructor of lines 179-182 decides for the first of them. *)
Lemma relayed_tool_call (response : types.GenerateContentResponse)
    (fc : types.FunctionCall) (rest : list types.FunctionCall) :
  first_candidate_tool_calls response = fc :: rest →
  relayed (Returned response) =
    match types.fc_name fc with
    | Some n =>
        Returned {| response_text := reply_text response;
                    functionCall :=
                      Some {| name := n;
                              args := default ∅ (types.fc_args fc) |} |}
    | None => Raised (Exception "ValidationError"
                        (validation_error "FunctionCall" "name"))
    end.
Proof.
  unfold relayed, first_surfaced. intros ->. simpl. rewrite surfaced_eq.
  by destruct (types.fc_name fc).
Qed.

Lemma module_init_configured (environ : gmap string string)
    (Client : string → Outcome genai.Client) (k : string) (c : genai.Client) :
  environ !! "GEMINI_API_KEY" = Some k → k ≠ "" → Client k = Returned c →
  configured (globals_after_import environ Client) c.
Proof.
  intros Hk Hne Hc. unfold globals_after_import, module_init. rewrite Hk.
  destruct k as [|a k]; [done|]. simpl. by rewrite Hc.
Qed.

Lemma module_init_not_configured (environ : gmap string string)
    (Client : string → Outcome genai.Client) :
  environ !! "GEMINI_API_KEY" = None
  ∨ environ !! "GEMINI_API_KEY" = Some ""
  ∨ (∃ k e, environ !! "GEMINI_API_KEY" = Some k ∧ Client k = Raised e) →
  let g := globals_after_import environ Client in
  truthy_str (GEMINI_API_KEY g) = false ∨ client g = Bound None.
Proof.
  unfold globals_after_import, module_init.
  intros [Hk|[Hk|(k & e & Hk & Hc)]]; rewrite Hk; simpl; [by left..|].
  destruct k as [|a k]; simpl; [by left|]. rewrite Hc. by right.
Qed.

Lemma no_reply_tool_calls_first (response : types.GenerateContentResponse) :
  reply_tool_calls response = [] → first_candidate_tool_calls response = [].
Proof.
  unfold reply_tool_calls, first_candidate_tool_calls.
  destruct (default [] (types.candidates response)) as [|candidate others];
    [done|].
  simpl. by intros [? _]%app_eq_nil.
Qed.

(** C1. Two requests with the same [message] lead to the same outbound
    calls whatever their [history] holds: each call is built from the
    client and the message alone, its [contents] is the message, and no
    field of it comes from the history. *)
Theorem history_not_in_outbound_call (g : Globals) (r1 r2 : GeminiRequest) (s : S) :
  message r1 = message r2 →
  outbound_calls (emitted (analyze_with_gemini service g r1 s)) =
    outbound_calls (emitted (analyze_with_gemini service g r2 s))
  ∧ Forall (λ call, call = analyze_call (via call) (message r1))
      (outbound_calls (emitted (analyze_with_gemini service g r1 s))).
Proof.
  intros Hmsg.
  destruct (truthy_str (GEMINI_API_KEY g)) eqn:Hkey.
  - destruct (client g) as [|[c|]] eqn:Hc.
    + rewrite !analyze_client_unbound by done. by split.
    + rewrite !(analyze_configured_calls g c) by done.
      rewrite Hmsg. split; [done|]. by repeat constructor.
    + rewrite !analyze_not_configured by auto. by split.
  - rewrite !analyze_not_configured by auto. by split.
Qed.

(** C2 (as amended). When the first candidate of the reply carries one or
    more function calls, the first of them alone decides the result.  If
    it has a name, [functionCall] is built from it: that name, and its
    arguments or the empty mapping when it has none.  If it has no name,
    the [FunctionCall] cannot be built and the request ends with the 500
    error that carries the validation error.  The later calls [rest] do
    not appear in the result. *)
Theorem first_candidate_first_call_surfaced (g : Globals) (c : genai.Client)
    (request : GeminiRequest) (s s' : S)
    (response : types.GenerateContentResponse)
    (fc : types.FunctionCall) (rest : list types.FunctionCall) :
  configured g c →
  service s (analyze_call c (message request)) = (s', Returned response) →
  first_candidate_tool_calls response = fc :: rest →
  outcome (analyze_with_gemini service g request s) =
    match types.fc_name fc with
    | Some n =>
        Returned {| response_text := reply_text response;
                    functionCall :=
                      Some {| name := n;
                              args := default ∅ (types.fc_args fc) |} |}
    | None =>
        Raised (HTTPException 500
                  ("Failed to process request with Gemini AI: "
                   ++ validation_error "FunctionCall" "name"))
    end.
Proof.
  intros Hg Hsvc Hfirst.
  rewrite (analyze_configured_outcome service g c request s Hg), Hsvc.
  cbn [snd].
  rewrite (relayed_tool_call response fc rest Hfirst).
  by destruct (types.fc_name fc).
Qed.

(** C3. Without a credential (the variable is unset or empty), or when the
    client could not be built, every request is answered by the 500 error
    that names the missing configuration; the handler emits nothing before
    it, so no outbound call, and leaves the upstream untouched. *)
Theorem not_configured_fails_before_any_call (environ : gmap string string)
    (Client : string → Outcome genai.Client) (request : GeminiRequest) (s : S) :
  environ !! "GEMINI_API_KEY" = None
  ∨ environ !! "GEMINI_API_KEY" = Some ""
  ∨ (∃ k e, environ !! "GEMINI_API_KEY" = Some k ∧ Client k = Raised e) →
  let g := globals_after_import environ Client in
  analyze_with_gemini service g request s =
    {| upstream := s; emitted := [];
       outcome := Raised (HTTPException 500 not_configured_detail) |}
  ∧ POST_api_gemini_analyze service g request s =
      {| status := 500;
         body := ADict {[ "detail" := AStr not_configured_detail ]} |}.
Proof.
  intros Henv g.
  pose proof (module_init_not_configured environ Client Henv) as Hg.
  unfold POST_api_gemini_analyze.
  by rewrite (analyze_not_configured service g request s Hg).
Qed.

(** C4. Whatever exception the call to the service raises, the handler
    catches it and raises the 500 error whose detail is the fixed prefix
    followed by [str(e)]; the response carries nothing else, and the call
    was made once. *)
Theorem upstream_failure_is_generic_500 (g : Globals) (c : genai.Client)
    (request : GeminiRequest) (s s' : S) (e : PyException) :
  configured g c →
  service s (analyze_call c (message request)) = (s', Raised e) →
  outcome (analyze_with_gemini service g request s) =
    Raised (HTTPException 500
              ("Failed to process request with Gemini AI: " ++ str e))
  ∧ POST_api_gemini_analyze service g request s =
      {| status := 500;
         body := ADict {[ "detail" :=
                   AStr ("Failed to process request with Gemini AI: " ++ str e) ]} |}
  ∧ outbound_calls (emitted (analyze_with_gemini service g request s)) =
      [analyze_call c (message request)].
Proof.
  intros Hg Hsvc. unfold POST_api_gemini_analyze.
  rewrite (analyze_configured service g c request s Hg). simpl.
  by rewrite Hsvc.
Qed.

(** C6. With a credential configured at import (a non-empty key and a
    client that was built), every request makes exactly one outbound call,
    advances the upstream by that one call, and ends: with a response, or
    with the 500 error. *)
Theorem configured_request_calls_once (environ : gmap string string)
    (Client : string → Outcome genai.Client) (k : string) (c : genai.Client)
    (request : GeminiRequest) (s : S) :
  environ !! "GEMINI_API_KEY" = Some k → k ≠ "" → Client k = Returned c →
  let run := analyze_with_gemini service
               (globals_after_import environ Client) request s in
  outbound_calls (emitted run) = [analyze_call c (message request)]
  ∧ upstream run = (service s (analyze_call c (message request))).1
  ∧ ((∃ response, outcome run = Returned response)
     ∨ (∃ detail, outcome run = Raised (HTTPException 500 detail))).
Proof.
  intros Hk Hne Hc run.
  pose proof (module_init_configured environ Client k c Hk Hne Hc) as Hg.
  split; [by apply analyze_configured_calls|].
  subst run. rewrite (analyze_configured service _ c request s Hg). simpl.
  destruct (service s _) as [s' reply]. simpl.
  destruct (relayed reply) as [r|e]; simpl; unfold failure; eauto.
Qed.

(** C7. A reply without any function call, in any candidate, gives a
    response whose [functionCall] is [None] (sent as null) and whose text is
    the reply's text, or the empty string when the reply has none. *)
Theorem no_tool_call_gives_null (g : Globals) (c : genai.Client)
    (request : GeminiRequest) (s s' : S)
    (response : types.GenerateContentResponse) :
  configured g c →
  service s (analyze_call c (message request)) = (s', Returned response) →
  reply_tool_calls response = [] →
  outcome (analyze_with_gemini service g request s) =
    Returned {| response_text := default "" (types.text response);
                functionCall := None |}
  ∧ POST_api_gemini_analyze service g request s =
      {| status := 200;
         body := ADict {[ "text" := AStr (default "" (types.text response));
                          "functionCall" := ANone ]} |}.
Proof.
  intros Hg Hsvc Hnone%no_reply_tool_calls_first.
  unfold POST_api_gemini_analyze.
  rewrite (analyze_configured_outcome service g c request s Hg), Hsvc.
  cbn [snd].
  by rewrite (relayed_no_tool_call response Hnone).
Qed.

(** C8. Only the first candidate is searched: when it carries no function
    call, [functionCall] is [None], whatever the later candidates hold. *)
Theorem only_first_candidate_inspected (g : Globals) (c : genai.Client)
    (request : GeminiRequest) (s s' : S)
    (response : types.GenerateContentResponse)
    (first : types.Candidate) (later : list types.Candidate) :
  configured g c →
  service s (analyze_call c (message request)) = (s', Returned response) →
  types.candidates response = Some (first :: later) →
  omap tool_call (candidate_parts first) = [] →
  outcome (analyze_with_gemini service g request s) =
    Returned {| response_text := reply_text response; functionCall := None |}.
Proof.
  intros Hg Hsvc Hcands Hfirst.
  rewrite (analyze_configured_outcome service g c request s Hg), Hsvc.
  cbn [snd].
  rewrite relayed_no_tool_call; [done|].
  unfold first_candidate_tool_calls. by rewrite Hcands.
Qed.

(** C9. The name of the surfaced call is the name [n] the reply gave,
    whatever string it is; it is not compared with the declared tool. *)
Theorem function_name_relayed_verbatim (g : Globals) (c : genai.Client)
    (request : GeminiRequest) (s s' : S)
    (response : types.GenerateContentResponse)
    (fc : types.FunctionCall) (rest : list types.FunctionCall) (n : string) :
  configured g c →
  service s (analyze_call c (message request)) = (s', Returned response) →
  first_candidate_tool_calls response = fc :: rest →
  types.fc_name fc = Some n →
  ∃ arguments,
    outcome (analyze_with_gemini service g request s) =
      Returned {| response_text := reply_text response;
                  functionCall := Some {| name := n;
                                          args := arguments |} |}.
Proof.
  intros Hg Hsvc Hfirst Hname. exists (default ∅ (types.fc_args fc)).
  rewrite (analyze_configured_outcome service g c request s Hg), Hsvc.
  cbn [snd].
  by rewrite (relayed_tool_call response fc rest Hfirst), Hname.
Qed.

(** C10. A key that is set while the client could not be built: the health
    check answers 200 with [gemini_configured] true, and every request to
    the relay fails with the not-configured error. *)
Theorem health_and_analyze_disagree (environ : gmap string string)
    (Client : string → Outcome genai.Client) (k : string) (e : PyException)
    (request : GeminiRequest) (s : S) :
  environ !! "GEMINI_API_KEY" = Some k → k ≠ "" → Client k = Raised e →
  let g := globals_after_import environ Client in
  GET_health g s =
    {| status := 200;
       body := ADict {[ "status" := AStr "healthy";
                        "service" := AStr "edid-calculator-backend";
                        "gemini_configured" := ABool true ]} |}
  ∧ POST_api_gemini_analyze service g request s =
      {| status := 500;
         body := ADict {[ "detail" := AStr not_configured_detail ]} |}.
Proof.
  intros Hk Hne Hc g.
  assert (Hg : truthy_str (GEMINI_API_KEY g) = false ∨ client g = Bound None).
  { apply module_init_not_configured. right; right. by exists k, e. }
  split.
  - unfold GET_health, health_check, g, globals_after_import, module_init.
    rewrite Hk. destruct k as [|a k]; [done|]. simpl. by rewrite Hc.
  - unfold POST_api_gemini_analyze.
    by rewrite (analyze_not_configured service g request s Hg).
Qed.

End Claims.

(** ** The health check *)

(** The module keeps the value of the environment variable as it is, and
    the health check tests it against [None] only. *)
Lemma health_check_reports_presence {S} (environ : gmap string string)
    (Client : string → Outcome genai.Client) (s : S) :
  GET_health (globals_after_import environ Client) s =
    {| status := 200;
       body := ADict {[ "status" := AStr "healthy";
                        "service" := AStr "edid-calculator-backend";
                        "gemini_configured" :=
                          ABool (bool_decide (environ !! "GEMINI_API_KEY" ≠ None)) ]} |}.
Proof.
  unfold GET_health, health_check, globals_after_import, module_init.
  destruct (truthy_str (environ !! "GEMINI_API_KEY")); simpl; [|done].
  by destruct (Client _).
Qed.

(** C5. With the variable set to the empty string the health check
    answers 200 with [gemini_configured] true, although the value is empty:
    the module body has logged it as not set, and the relay answers every
    request with the not-configured error. *)
Theorem health_true_for_empty_key :
  let g := globals_after_import empty_key_environ build_client in
  empty_key_environ !! "GEMINI_API_KEY" = Some ""
  ∧ GET_health g 0 =
      {| status := 200;
         body := ADict {[ "status" := AStr "healthy";
                          "service" := AStr "edid-calculator-backend";
                          "gemini_configured" := ABool true ]} |}
  ∧ (module_init empty_key_environ build_client).1 =
      [Log ERROR "GEMINI_API_KEY environment variable not set!" false]
  ∧ POST_api_gemini_analyze (counting (Returned reply_text_only)) g
      request_no_history 0 =
      {| status := 500;
         body := ADict {[ "detail" := AStr not_configured_detail ]} |}.
Proof. by vm_compute. Qed.

(** ** The claims at sample inputs *)

(** C1 at two requests that differ in their history only. *)
Lemma history_not_in_outbound_call_witness :
  outbound_calls (emitted (analyze_with_gemini
      (counting (Returned reply_text_only)) test_globals request_no_history 0)) =
    outbound_calls (emitted (analyze_with_gemini
      (counting (Returned reply_text_only)) test_globals request_with_history 0))
  ∧ Forall (λ call, call = analyze_call (via call) (message request_no_history))
      (outbound_calls (emitted (analyze_with_gemini
         (counting (Returned reply_text_only)) test_globals request_no_history 0))).
Proof.
  apply (history_not_in_outbound_call (counting (Returned reply_text_only))
           test_globals request_no_history request_with_history 0).
  reflexivity.
Defined.

(** C2 as stated fails: a reply whose only function call sits in the
    second candidate contains a tool-call part, and [functionCall] is
    [None]. *)
Lemma tool_call_outside_first_candidate_dropped :
  reply_tool_calls reply_call_in_second_candidate = [pixel_clock_call]
  ∧ outcome (analyze_with_gemini
               (counting (Returned reply_call_in_second_candidate))
               test_globals request_no_history 0) =
      Returned {| response_text := "Done"; functionCall := None |}.
Proof. split; reflexivity. Qed.

(** C2 (as amended) at a reply with two function calls: the first one's
    arguments are surfaced. *)
Lemma first_candidate_first_call_surfaced_witness :
  outcome (analyze_with_gemini (counting (Returned reply_two_calls))
             test_globals request_no_history 0) =
    Returned {| response_text := "Done";
                functionCall :=
                  Some {| name := "updateEdidForm";
                          args := {[ "pixelClock" := AInt 148500 ]} |} |}.
Proof.
  apply (first_candidate_first_call_surfaced (counting (Returned reply_two_calls))
           test_globals test_client request_no_history 0 1 reply_two_calls
           pixel_clock_call [refresh_rate_call]).
  - split; reflexivity.
  - reflexivity.
  - reflexivity.
Defined.

(** C3 at an empty environment. *)
Lemma not_configured_fails_before_any_call_witness :
  analyze_with_gemini (counting (Returned reply_text_only))
    (globals_after_import ∅ build_client) request_with_history 0 =
    {| upstream := 0; emitted := [];
       outcome := Raised (HTTPException 500 not_configured_detail) |}
  ∧ POST_api_gemini_analyze (counting (Returned reply_text_only))
      (globals_after_import ∅ build_client) request_with_history 0 =
      {| status := 500;
         body := ADict {[ "detail" := AStr not_configured_detail ]} |}.
Proof.
  apply (not_configured_fails_before_any_call (counting (Returned reply_text_only))
           ∅ build_client request_with_history 0).
  left. reflexivity.
Defined.

(** C4 at a quota error of the service. *)
Lemma upstream_failure_is_generic_500_witness :
  outcome (analyze_with_gemini (counting (Raised quota_exceeded))
             test_globals request_no_history 0) =
    Raised (HTTPException 500
              "Failed to process request with Gemini AI: 429 RESOURCE_EXHAUSTED")
  ∧ POST_api_gemini_analyze (counting (Raised quota_exceeded))
      test_globals request_no_history 0 =
      {| status := 500;
         body := ADict {[ "detail" :=
           AStr "Failed to process request with Gemini AI: 429 RESOURCE_EXHAUSTED" ]} |}
  ∧ outbound_calls (emitted (analyze_with_gemini (counting (Raised quota_exceeded))
                               test_globals request_no_history 0)) =
      [analyze_call test_client (message request_no_history)].
Proof.
  apply (upstream_failure_is_generic_500 (counting (Raised quota_exceeded))
           test_globals test_client request_no_history 0 1 quota_exceeded).
  - split; reflexivity.
  - reflexivity.
Defined.

(** C6 at the sample environment: one call, and the counter of the
    upstream stands at one. *)
Lemma configured_request_calls_once_witness :
  let run := analyze_with_gemini (counting (Returned reply_two_calls))
               (globals_after_import test_environ build_client)
               request_with_history 0 in
  outbound_calls (emitted run) =
    [analyze_call test_client (message request_with_history)]
  ∧ upstream run =
      (counting (Returned reply_two_calls) 0
         (analyze_call test_client (message request_with_history))).1
  ∧ ((∃ response, outcome run = Returned response)
     ∨ (∃ detail, outcome run = Raised (HTTPException 500 detail))).
Proof.
  apply (configured_request_calls_once (counting (Returned reply_two_calls))
           test_environ build_client "test-key" test_client
           request_with_history 0).
  - reflexivity.
  - discriminate.
  - reflexivity.
Defined.

(** C7 at a reply with neither text nor candidates. *)
Lemma no_tool_call_gives_null_witness :
  outcome (analyze_with_gemini (counting (Returned reply_nothing))
             test_globals request_no_history 0) =
    Returned {| response_text := ""; functionCall := None |}
  ∧ POST_api_gemini_analyze (counting (Returned reply_nothing))
      test_globals request_no_history 0 =
      {| status := 200;
         body := ADict {[ "text" := AStr ""; "functionCall" := ANone ]} |}.
Proof.
  apply (no_tool_call_gives_null (counting (Returned reply_nothing))
           test_globals test_client request_no_history 0 1 reply_nothing).
  - split; reflexivity.
  - reflexivity.
  - reflexivity.
Defined.

(** C8 at a reply whose second candidate carries a function call. *)
Lemma only_first_candidate_inspected_witness :
  outcome (analyze_with_gemini
             (counting (Returned reply_call_in_second_candidate))
             test_globals request_with_history 0) =
    Returned {| response_text := "Done"; functionCall := None |}.
Proof.
  apply (only_first_candidate_inspected
           (counting (Returned reply_call_in_second_candidate))
           test_globals test_client request_with_history 0 1
           reply_call_in_second_candidate
           (candidate_of [text_part "Done"])
           [candidate_of [call_part pixel_clock_call]]).
  - split; reflexivity.
  - reflexivity.
  - reflexivity.
  - reflexivity.
Defined.

(** C9 at a reply that names a tool the relay never declared. *)
Lemma function_name_relayed_verbatim_witness :
  ∃ arguments,
    outcome (analyze_with_gemini (counting (Returned reply_undeclared_tool))
               test_globals request_no_history 0) =
      Returned {| response_text := "";
                  functionCall := Some {| name := "eraseEdid";
                                          args := arguments |} |}.
Proof.
  apply (function_name_relayed_verbatim
           (counting (Returned reply_undeclared_tool))
           test_globals test_client request_no_history 0 1
           reply_undeclared_tool undeclared_call [] "eraseEdid").
  - split; reflexivity.
  - reflexivity.
  - reflexivity.
  - reflexivity.
Defined.

(** C10 at the sample environment with a constructor that raises. *)
Lemma health_and_analyze_disagree_witness :
  GET_health (globals_after_import test_environ failing_client) 0 =
    {| status := 200;
       body := ADict {[ "status" := AStr "healthy";
                        "service" := AStr "edid-calculator-backend";
                        "gemini_configured" := ABool true ]} |}
  ∧ POST_api_gemini_analyze (counting (Returned reply_text_only))
      (globals_after_import test_environ failing_client) request_no_history 0 =
      {| status := 500;
         body := ADict {[ "detail" := AStr not_configured_detail ]} |}.
Proof.
  apply (health_and_analyze_disagree (counting (Returned reply_text_only))
           test_environ failing_client "test-key"
           (Exception "ValueError" "Missing key inputs argument!")
           request_no_history 0).
  - reflexivity.
  - discriminate.
  - reflexivity.
Defined.

(** * Further properties of the module *)

Section AfterImport.

Context {S : Type} `{Pydantic}
        (service : S → GenerateContentCall →
                   S * Outcome types.GenerateContentResponse).

(** What the module body can leave behind: a client to call with, or a
    state the guard of line 108 stops. *)
Lemma globals_after_import_cases (environ : gmap string string)
    (Client : string → Outcome genai.Client) :
  let g := globals_after_import environ Client in
  (∃ c, configured g c)
  ∨ truthy_str (GEMINI_API_KEY g) = false ∨ client g = Bound None.
Proof.
  unfold globals_after_import, module_init, configured.
  destruct (truthy_str (environ !! "GEMINI_API_KEY")) eqn:Hkey; simpl.
  - destruct (Client _) as [c|e]; simpl; [left; by exists c|by right; right].
  - right; by left.
Qed.

Lemma configured_after_import_key (environ : gmap string string)
    (Client : string → Outcome genai.Client) (c : genai.Client) :
  configured (globals_after_import environ Client) c →
  ∃ k, environ !! "GEMINI_API_KEY" = Some k ∧ k ≠ "" ∧ Client k = Returned c.
Proof.
  unfold globals_after_import, module_init, configured.
  destruct (environ !! "GEMINI_API_KEY") as [[|a k]|] eqn:Hk; simpl;
    [by intros [? _]| |by intros [? _]].
  destruct (Client _) as [c'|e] eqn:Hc; simpl; intros [_ Hb];
    [|discriminate Hb].
  injection Hb as <-. by exists (String a k).
Qed.


(** X1. After import the relay never ends in an unhandled exception: the
    unbound [client] of the key-less branch is never read, and a request
    ends with a response or with an [HTTPException] of status 500. *)
Theorem analyze_after_import_never_unhandled (environ : gmap string string)
    (Client : string → Outcome genai.Client) (request : GeminiRequest) (s : S) :
  let run := analyze_with_gemini service
               (globals_after_import environ Client) request s in
  (∃ response, outcome run = Returned response)
  ∨ (∃ detail, outcome run = Raised (HTTPException 500 detail)).
Proof.
  intros run. subst run.
  destruct (globals_after_import_cases environ Client) as [[c Hg]|Hg].
  - rewrite (analyze_configured_outcome service _ c request s Hg).
    destruct (relayed _) as [r|e]; unfold failure; eauto.
  - rewrite (analyze_not_configured service _ request s Hg). simpl. eauto.
Qed.

(** The reply is relayed, and not turned into an error, exactly when the
    first function call of its first candidate, if there is one, has a
    name. *)
Lemma relayed_returns_iff (response : types.GenerateContentResponse) :
  (∃ r, relayed (Returned response) = Returned r)
  ↔ ∀ fc, head (first_candidate_tool_calls response) = Some fc →
          is_Some (types.fc_name fc).
Proof.
  destruct (first_candidate_tool_calls response) as [|fc rest] eqn:Hfirst.
  - rewrite (relayed_no_tool_call response Hfirst). split; [done|eauto].
  - rewrite (relayed_tool_call response fc rest Hfirst). simpl. split.
    + intros [r Hr] fc' [= <-]. by destruct (types.fc_name fc).
    + intros Hname. destruct (Hname fc eq_refl) as [n ->]. eauto.
Qed.

(** X3. The relay answers 200 exactly when a non-empty key was set, the
    client was built, the one call to the service returned a reply, and
    the first function call of the reply's first candidate, if there is
    one, has a name; in every other case the status is not 200. *)
Theorem analyze_status_200_iff (environ : gmap string string)
    (Client : string → Outcome genai.Client) (request : GeminiRequest) (s : S) :
  status (POST_api_gemini_analyze service
            (globals_after_import environ Client) request s) = 200
  ↔ ∃ k c response,
      environ !! "GEMINI_API_KEY" = Some k ∧ k ≠ "" ∧ Client k = Returned c
      ∧ (service s (analyze_call c (message request))).2 = Returned response
      ∧ ∀ fc, head (first_candidate_tool_calls response) = Some fc →
              is_Some (types.fc_name fc).
Proof.
  unfold POST_api_gemini_analyze. split.
  - destruct (globals_after_import_cases environ Client) as [[c Hg]|Hg].
    + rewrite (analyze_configured_outcome service _ c request s Hg).
      apply configured_after_import_key in Hg as (k & Hk & Hne & Hc).
      destruct (service s _) as [s' [response|e]] eqn:Hsvc; cbn [snd];
        [|done].
      destruct (relayed (Returned response)) as [r|e] eqn:Hr; [|done].
      intros _. exists k, c, response. rewrite Hsvc.
      repeat split; [done..|]. apply relayed_returns_iff. eauto.
    + by rewrite (analyze_not_configured service _ request s Hg).
  - intros (k & c & response & Hk & Hne & Hc & Hsvc & Hname).
    pose proof (module_init_configured environ Client k c Hk Hne Hc) as Hg.
    rewrite (analyze_configured_outcome service _ c request s Hg), Hsvc.
    apply relayed_returns_iff in Hname as [r ->]. done.
Qed.

(** X13. The module body logs the line of line 48, and that line alone,
    exactly when the relay is left with a client to call with; every other
    import logs one record, at level ERROR: that the variable is not set,
    or that the client could not be built, with the exception's text. *)
Theorem import_success_log_iff_configured (environ : gmap string string)
    (Client : string → Outcome genai.Client) :
  let log := (module_init environ Client).1 in
  let g := globals_after_import environ Client in
  (log = [Log INFO "Gemini AI client initialized successfully" false]
   ↔ ∃ c, configured g c)
  ∧ ((∃ c, configured g c)
     ∨ log = [Log ERROR "GEMINI_API_KEY environment variable not set!" false]
     ∨ ∃ k e, environ !! "GEMINI_API_KEY" = Some k ∧ Client k = Raised e
              ∧ log = [Log ERROR ("Failed to initialize Gemini client: "
                                  ++ str e) false]).
Proof.
  unfold globals_after_import, module_init, configured.
  destruct (environ !! "GEMINI_API_KEY") as [[|a k]|] eqn:Hk; simpl.
  - split; [|by right; left]. split; [done|by intros [c [? _]]].
  - destruct (Client _) as [c|e] eqn:Hc; simpl.
    + split; [|left; by exists c]. split; [intros _; by exists c|done].
    + split; [|right; right; by exists (String a k), e].
      split; [done|by intros [c [_ ?]]].
  - split; [|by right; left]. split; [done|by intros [c [? _]]].
Qed.

End AfterImport.

Section Requests.

Context {S : Type} `{Pydantic}
        (service : S → GenerateContentCall →
                   S * Outcome types.GenerateContentResponse).

(** X4. The history has no effect on what the caller and the upstream
    see: two requests with the same message leave the upstream in the same
    state and get the same outcome and the same HTTP response, for any
    module state. *)
Theorem history_does_not_affect_response (g : Globals)
    (r1 r2 : GeminiRequest) (s : S) :
  message r1 = message r2 →
  upstream (analyze_with_gemini service g r1 s) =
    upstream (analyze_with_gemini service g r2 s)
  ∧ outcome (analyze_with_gemini service g r1 s) =
      outcome (analyze_with_gemini service g r2 s)
  ∧ POST_api_gemini_analyze service g r1 s =
      POST_api_gemini_analyze service g r2 s.
Proof.
  intros Hmsg. unfold POST_api_gemini_analyze.
  destruct (truthy_str (GEMINI_API_KEY g)) eqn:Hkey.
  - destruct (client g) as [|[c|]] eqn:Hc.
    + by rewrite !analyze_client_unbound.
    + rewrite !(analyze_configured service g c) by done. simpl.
      rewrite Hmsg. destruct (service s _) as [s' reply].
      by destruct (relayed reply).
    + by rewrite !analyze_not_configured by auto.
  - by rewrite !analyze_not_configured by auto.
Qed.

(** X5. Of the history the handler uses the length alone, and that only
    in its first log line: two requests with the same message and
    histories of the same length have the same run, events included. *)
Theorem run_depends_on_history_length_only (g : Globals)
    (r1 r2 : GeminiRequest) (s : S) :
  message r1 = message r2 →
  length (history r1) = length (history r2) →
  analyze_with_gemini service g r1 s = analyze_with_gemini service g r2 s.
Proof.
  intros Hmsg Hlen.
  destruct (truthy_str (GEMINI_API_KEY g)) eqn:Hkey.
  - destruct (client g) as [|[c|]] eqn:Hc.
    + by rewrite !analyze_client_unbound.
    + rewrite !(analyze_configured service g c) by done. simpl.
      unfold received_log. by rewrite Hmsg, Hlen.
    + by rewrite !analyze_not_configured by auto.
  - by rewrite !analyze_not_configured by auto.
Qed.

(** X6. The credential reaches the outbound call and nothing else: under
    two module states with different clients, a request that gets the same
    reply from the upstream has the same outcome, the same HTTP response
    and the same log records. *)
Theorem credential_only_in_outbound_call (g1 g2 : Globals)
    (c1 c2 : genai.Client) (request : GeminiRequest) (s s1 s2 : S)
    (reply : Outcome types.GenerateContentResponse) :
  configured g1 c1 → configured g2 c2 →
  service s (analyze_call c1 (message request)) = (s1, reply) →
  service s (analyze_call c2 (message request)) = (s2, reply) →
  outcome (analyze_with_gemini service g1 request s) =
    outcome (analyze_with_gemini service g2 request s)
  ∧ POST_api_gemini_analyze service g1 request s =
      POST_api_gemini_analyze service g2 request s
  ∧ log_records (emitted (analyze_with_gemini service g1 request s)) =
      log_records (emitted (analyze_with_gemini service g2 request s)).
Proof.
  intros Hg1 Hg2 Hsvc1 Hsvc2. unfold POST_api_gemini_analyze.
  rewrite (analyze_configured service g1 c1 request s Hg1).
  rewrite (analyze_configured service g2 c2 request s Hg2). simpl.
  rewrite Hsvc1, Hsvc2. by destruct (relayed reply).
Qed.

(** X7. The log of a successful request describes the response that was
    returned: after the received line and the call, a detection line names
    the surfaced function exactly when there is one, and the last line
    carries the number of characters (code points, as [len] counts them)
    of the returned text and whether a function call is present. *)
Theorem success_log_describes_response (g : Globals) (c : genai.Client)
    (request : GeminiRequest) (s : S) (r : GeminiResponse) :
  configured g c →
  outcome (analyze_with_gemini service g request s) = Returned r →
  emitted (analyze_with_gemini service g request s) =
    ([received_log request; Outbound (analyze_call c (message request))]
     ++ match functionCall r with
        | Some fc => [Log INFO ("Function call detected: " ++ name fc) false]
        | None => []
        end
     ++ [Log INFO ("Gemini response: " ++ pretty (str_len (response_text r))
                   ++ " chars, function_call: "
                   ++ str_bool (bool_decide (functionCall r ≠ None))) false])%list.
Proof.
  intros Hg. rewrite (analyze_configured service g c request s Hg). simpl.
  destruct (service s _) as [s' reply].
  destruct (relayed reply) as [r'|e]; simpl; [|done].
  by intros [= <-].
Qed.

(** X16. A reply whose first candidate gives a function call without a
    name before anything else it calls is answered with the 500 error of
    the [except] clause, carrying the validation error: the call to the
    service has been made, the error is logged, no detection line is, and
    the later function calls are not used. *)
Theorem nameless_function_call_is_500 (g : Globals) (c : genai.Client)
    (request : GeminiRequest) (s s' : S)
    (response : types.GenerateContentResponse)
    (fc : types.FunctionCall) (rest : list types.FunctionCall) :
  configured g c →
  service s (analyze_call c (message request)) = (s', Returned response) →
  first_candidate_tool_calls response = fc :: rest →
  types.fc_name fc = None →
  analyze_with_gemini service g request s =
    {| upstream := s';
       emitted :=
         [ received_log request;
           Outbound (analyze_call c (message request));
           Log ERROR ("Error calling Gemini API: "
                      ++ validation_error "FunctionCall" "name") true ];
       outcome :=
         Raised (HTTPException 500
                   ("Failed to process request with Gemini AI: "
                    ++ validation_error "FunctionCall" "name")) |}
  ∧ POST_api_gemini_analyze service g request s =
      {| status := 500;
         body := ADict {[ "detail" :=
                   AStr ("Failed to process request with Gemini AI: "
                         ++ validation_error "FunctionCall" "name") ]} |}.
Proof.
  intros Hg Hsvc Hfirst Hname. unfold POST_api_gemini_analyze.
  rewrite (analyze_configured service g c request s Hg). simpl.
  by rewrite Hsvc, (relayed_tool_call response fc rest Hfirst), Hname.
Qed.

End Requests.

Section Lifecycle.

Context {S : Type} `{Pydantic}
        (service : S → GenerateContentCall →
                   S * Outcome types.GenerateContentResponse).

(** The four records of the startup hook. *)
Lemma startup_event_run (g : Globals) (s : S) :
  startup_event g s =
    {| upstream := s;
       emitted :=
         [ Log INFO "==================================================" false;
           Log INFO "EDID Calculator Backend Starting" false;
           Log INFO ("Gemini API Key configured: "
                     ++ str_bool (truthy_str (GEMINI_API_KEY g))) false;
           Log INFO "==================================================" false ];
       outcome := Returned () |}.
Proof. reflexivity. Qed.

Lemma startup_flag_logged (g : Globals) (s : S) (b : bool) :
  Log INFO ("Gemini API Key configured: " ++ str_bool b) false
    ∈ emitted (startup_event g s)
  ↔ b = truthy_str (GEMINI_API_KEY g).
Proof.
  rewrite startup_event_run. simpl. split.
  - intros Hin. repeat apply elem_of_cons in Hin as [Heq|Hin];
      [..|by apply elem_of_nil in Hin]; try (by destruct b).
    by destruct b, (truthy_str (GEMINI_API_KEY g)).
  - intros ->. do 2 apply list_elem_of_further. apply list_elem_of_here.
Qed.

(** X8. A startup log that reports the key as not configured announces a
    relay that refuses every request: the handler emits nothing, leaves the
    upstream alone and raises the not-configured error. *)
Theorem startup_flag_false_means_unconfigured (g : Globals)
    (request : GeminiRequest) (s0 s : S) :
  Log INFO "Gemini API Key configured: False" false
    ∈ emitted (startup_event g s0) →
  analyze_with_gemini service g request s =
    {| upstream := s; emitted := [];
       outcome := Raised (HTTPException 500 not_configured_detail) |}.
Proof.
  intros Hin. apply (startup_flag_logged g s0 false) in Hin.
  apply analyze_not_configured. by left.
Qed.

(** X9. The health check and the startup log report the same flag in all
    cases but one, the variable set to the empty string: there the health
    check says true and the startup log says False. *)
Theorem health_agrees_with_startup_flag_iff (environ : gmap string string)
    (Client : string → Outcome genai.Client) (s : S) :
  let g := globals_after_import environ Client in
  let health b :=
    GET_health g s =
      {| status := 200;
         body := ADict {[ "status" := AStr "healthy";
                          "service" := AStr "edid-calculator-backend";
                          "gemini_configured" := ABool b ]} |} in
  let startup b :=
    Log INFO ("Gemini API Key configured: " ++ str_bool b) false
      ∈ emitted (startup_event g s) in
  ((∃ b, health b ∧ startup b) ↔ environ !! "GEMINI_API_KEY" ≠ Some "")
  ∧ (environ !! "GEMINI_API_KEY" = Some "" → health true ∧ startup false).
Proof.
  intros g health startup.
  assert (Hkey : GEMINI_API_KEY g = environ !! "GEMINI_API_KEY").
  { unfold g, globals_after_import, module_init.
    destruct (truthy_str _); simpl; [|done]. by destruct (Client _). }
  unfold health, startup, g. rewrite health_check_reports_presence.
  split; [split|].
  - intros (b & Hb & Hlog) Hempty.
    apply startup_flag_logged in Hlog. fold g in Hlog.
    rewrite Hkey, Hempty in Hlog. subst b.
    apply (f_equal (λ r, match body r with
                         | ADict d => d !! "gemini_configured"
                         | _ => None
                         end)) in Hb.
    rewrite Hempty in Hb. by vm_compute in Hb.
  - intros Hne. exists (truthy_str (environ !! "GEMINI_API_KEY")). split.
    + destruct (environ !! "GEMINI_API_KEY") as [[|a k]|]; done.
    + apply startup_flag_logged. fold g. by rewrite Hkey.
  - intros Hempty. split.
    + by rewrite Hempty.
    + apply startup_flag_logged. fold g. by rewrite Hkey, Hempty.
Qed.

(** X10. Every path that the root endpoint advertises under [endpoints]
    is a route the application registers. *)
Theorem root_advertises_registered_routes (s : S)
    (body : gmap string Any) (endpoints : gmap string Any)
    (label : string) (v : Any) :
  outcome (root s) = Returned body →
  body !! "endpoints" = Some (ADict endpoints) →
  endpoints !! label = Some v →
  ∃ method path, v = AStr path ∧ (method, path) ∈ app_routes.
Proof.
  intros [= <-] [= <-] Hlabel.
  apply lookup_insert_Some in Hlabel as [[_ <-]|[_ Hlabel]].
  - exists GET, "/health". split; [done|]. apply list_elem_of_here.
  - apply lookup_singleton_Some in Hlabel as [_ <-].
    exists POST, "/api/gemini/analyze". split; [done|].
    apply list_elem_of_further, list_elem_of_here.
Qed.

(** X11. Requests served one after the other by a configured relay make
    one outbound call each, in the order of the requests, each carrying
    the message of its own request; every request is answered. *)
Theorem serve_all_one_call_per_request (g : Globals) (c : genai.Client)
    (requests : list GeminiRequest) (s : S) :
  configured g c →
  outbound_calls (serve_all service g requests s).1.2 =
    (λ request, analyze_call c (message request)) <$> requests
  ∧ length (serve_all service g requests s).2 = length requests.
Proof.
  intros Hg. revert s.
  induction requests as [|request rest IH]; intros s; [done|].
  simpl.
  destruct (IH (upstream (analyze_with_gemini service g request s)))
    as [IHcalls IHlen].
  destruct (serve_all service g rest _) as [[s' evs] responses]. simpl in *.
  rewrite outbound_calls_app, (analyze_configured_calls service g c) by done.
  simpl. by rewrite IHcalls, IHlen.
Qed.

(** X12. Requests served by a relay that is not configured are all
    answered with the not-configured error; nothing is logged, nothing is
    sent, and the upstream is left as it was. *)
Theorem serve_all_not_configured (g : Globals)
    (requests : list GeminiRequest) (s : S) :
  truthy_str (GEMINI_API_KEY g) = false ∨ client g = Bound None →
  serve_all service g requests s =
    (s, [],
     replicate (length requests)
       {| status := 500;
          body := ADict {[ "detail" := AStr not_configured_detail ]} |}).
Proof.
  intros Hg. induction requests as [|request rest IH]; [done|].
  simpl. rewrite (analyze_not_configured service g request s Hg). simpl.
  by rewrite IH.
Qed.

(** X14. The health check answers 200 whatever the module state, and
    reports [gemini_configured] true exactly when the variable is present
    in the environment, empty or not, built client or not. *)
Theorem health_configured_iff_variable_present (environ : gmap string string)
    (Client : string → Outcome genai.Client) (s : S) :
  let response := GET_health (globals_after_import environ Client) s in
  status response = 200
  ∧ (match body response with
     | ADict d => d !! "gemini_configured"
     | _ => None
     end = Some (ABool true)
     ↔ is_Some (environ !! "GEMINI_API_KEY")).
Proof.
  intros response. unfold response.
  rewrite health_check_reports_presence. split; [done|].
  destruct (environ !! "GEMINI_API_KEY") as [k|].
  - split; [by eexists|done].
  - split; [by vm_compute|by intros [? ?]].
Qed.

(** X15. The loop over the parts stops at the first part that carries a
    function call: the parts before it, which have no [function_call]
    attribute or have it [None], are passed over, and the parts after it
    are not looked at.  When the call has a name, one line is logged and
    the result carries the name and the arguments, or the empty mapping;
    when it has none, the loop raises the validation error before any
    line is logged. *)
Theorem first_function_call_breaks_at_first
    (before after : list types.Part) (part : types.Part)
    (fc : types.FunctionCall) (s : S) :
  Forall (λ p, types.function_call p = None
               ∨ types.function_call p = Some None) before →
  types.function_call part = Some (Some fc) →
  first_function_call (before ++ part :: after) s =
    match types.fc_name fc with
    | Some n =>
        {| upstream := s;
           emitted := [Log INFO ("Function call detected: " ++ n) false];
           outcome := Returned (Some {| name := n;
                                        args := default ∅ (types.fc_args fc) |}) |}
    | None =>
        {| upstream := s;
           emitted := [];
           outcome := Raised (Exception "ValidationError"
                                (validation_error "FunctionCall" "name")) |}
    end.
Proof.
  intros Hbefore Hpart. rewrite first_function_call_run.
  assert (omap tool_call (before ++ part :: after)%list
          = fc :: omap tool_call after) as ->.
  { induction Hbefore as [|p before Hp _ IH]; simpl.
    - unfold tool_call at 1. by rewrite Hpart.
    - unfold tool_call at 1. by destruct Hp as [->| ->]. }
  simpl. rewrite surfaced_eq. by destruct (types.fc_name fc).
Qed.

End Lifecycle.

(** ** The further properties at sample inputs *)

(** X4 at two requests that differ in their history only. *)
Lemma history_does_not_affect_response_witness :
  upstream (analyze_with_gemini (counting (Returned reply_two_calls))
              test_globals request_no_history 0) =
    upstream (analyze_with_gemini (counting (Returned reply_two_calls))
                test_globals request_with_history 0)
  ∧ outcome (analyze_with_gemini (counting (Returned reply_two_calls))
               test_globals request_no_history 0) =
      outcome (analyze_with_gemini (counting (Returned reply_two_calls))
                 test_globals request_with_history 0)
  ∧ POST_api_gemini_analyze (counting (Returned reply_two_calls))
      test_globals request_no_history 0 =
      POST_api_gemini_analyze (counting (Returned reply_two_calls))
        test_globals request_with_history 0.
Proof.
  apply (history_does_not_affect_response (counting (Returned reply_two_calls))
           test_globals request_no_history request_with_history 0).
  reflexivity.
Defined.

(** X5 at two histories of two messages each. *)
Lemma run_depends_on_history_length_only_witness :
  analyze_with_gemini (counting (Returned reply_two_calls))
    test_globals request_with_history 0 =
  analyze_with_gemini (counting (Returned reply_two_calls))
    test_globals request_other_history 0.
Proof.
  apply (run_depends_on_history_length_only
           (counting (Returned reply_two_calls))
           test_globals request_with_history request_other_history 0).
  - reflexivity.
  - reflexivity.
Defined.

(** X6 at two keys. *)
Lemma credential_only_in_outbound_call_witness :
  outcome (analyze_with_gemini (counting (Returned reply_two_calls))
             test_globals request_no_history 0) =
    outcome (analyze_with_gemini (counting (Returned reply_two_calls))
               other_globals request_no_history 0)
  ∧ POST_api_gemini_analyze (counting (Returned reply_two_calls))
      test_globals request_no_history 0 =
      POST_api_gemini_analyze (counting (Returned reply_two_calls))
        other_globals request_no_history 0
  ∧ log_records (emitted (analyze_with_gemini
        (counting (Returned reply_two_calls)) test_globals request_no_history 0)) =
      log_records (emitted (analyze_with_gemini
        (counting (Returned reply_two_calls)) other_globals request_no_history 0)).
Proof.
  apply (credential_only_in_outbound_call (counting (Returned reply_two_calls))
           test_globals other_globals test_client other_client
           request_no_history 0 1 1 (Returned reply_two_calls)).
  - split; reflexivity.
  - split; reflexivity.
  - reflexivity.
  - reflexivity.
Defined.

(** X7 at a reply with a function call and a text of fourteen
    characters, four of which take more than one byte. *)
Lemma success_log_describes_response_witness :
  emitted (analyze_with_gemini (counting (Returned reply_umlaut))
             test_globals request_with_history 0) =
    [ Log INFO "Received Gemini request with 2 history messages" false;
      Outbound (analyze_call test_client "Set pixel clock to 148500 kHz");
      Log INFO "Function call detected: updateEdidForm" false;
      Log INFO "Gemini response: 14 chars, function_call: True" false ].
Proof.
  apply (success_log_describes_response (counting (Returned reply_umlaut))
           test_globals test_client request_with_history 0
           {| response_text := "Größe: 60 Hz ✓";
              functionCall :=
                Some {| name := "updateEdidForm";
                        args := {[ "refreshRate" := AInt 60 ]} |} |}).
  - split; reflexivity.
  - reflexivity.
Defined.

(** X9 at the variable set to the empty string. *)
Lemma health_agrees_with_startup_flag_iff_witness :
  GET_health (globals_after_import empty_key_environ build_client) 0 =
    {| status := 200;
       body := ADict {[ "status" := AStr "healthy";
                        "service" := AStr "edid-calculator-backend";
                        "gemini_configured" := ABool true ]} |}
  ∧ Log INFO "Gemini API Key configured: False" false
      ∈ emitted (startup_event
                   (globals_after_import empty_key_environ build_client) 0).
Proof.
  apply (proj2 (health_agrees_with_startup_flag_iff
                  empty_key_environ build_client 0)).
  reflexivity.
Defined.

(** X16 at a reply whose first function call has no name and whose
    second one is well formed. *)
Lemma nameless_function_call_is_500_witness :
  analyze_with_gemini (counting (Returned reply_nameless_call))
    test_globals request_no_history 0 =
    {| upstream := 1;
       emitted :=
         [ Log INFO "Received Gemini request with 0 history messages" false;
           Outbound (analyze_call test_client "Set pixel clock to 148500 kHz");
           Log ERROR ("Error calling Gemini API: "
                      ++ validation_error "FunctionCall" "name") true ];
       outcome :=
         Raised (HTTPException 500
                   ("Failed to process request with Gemini AI: "
                    ++ validation_error "FunctionCall" "name")) |}
  ∧ POST_api_gemini_analyze (counting (Returned reply_nameless_call))
      test_globals request_no_history 0 =
      {| status := 500;
         body := ADict {[ "detail" :=
                   AStr ("Failed to process request with Gemini AI: "
                         ++ validation_error "FunctionCall" "name") ]} |}.
Proof.
  apply (nameless_function_call_is_500 (counting (Returned reply_nameless_call))
           test_globals test_client request_no_history 0 1
           reply_nameless_call nameless_call [refresh_rate_call]).
  - split; reflexivity.
  - reflexivity.
  - reflexivity.
  - reflexivity.
Defined.

(** X8 at an empty environment. *)
Lemma startup_flag_false_means_unconfigured_witness :
  analyze_with_gemini (counting (Returned reply_text_only))
    (globals_after_import ∅ build_client) request_no_history 7 =
    {| upstream := 7; emitted := [];
       outcome := Raised (HTTPException 500 not_configured_detail) |}.
Proof.
  apply (startup_flag_false_means_unconfigured
           (counting (Returned reply_text_only))
           (globals_after_import ∅ build_client) request_no_history 0 7).
  do 2 apply list_elem_of_further. apply list_elem_of_here.
Defined.

(** X10 at the health entry. *)
Lemma root_advertises_registered_routes_witness :
  ∃ method path, AStr "/health" = AStr path ∧ (method, path) ∈ app_routes.
Proof.
  apply (root_advertises_registered_routes 0
           {[ "service" := AStr "EDID Calculator Backend";
              "status" := AStr "running";
              "endpoints" :=
                ADict {[ "health" := AStr "/health";
                         "gemini_proxy" := AStr "/api/gemini/analyze" ]} ]}
           {[ "health" := AStr "/health";
              "gemini_proxy" := AStr "/api/gemini/analyze" ]}
           "health" (AStr "/health")).
  - reflexivity.
  - reflexivity.
  - reflexivity.
Defined.

(** X11 at three requests. *)
Lemma serve_all_one_call_per_request_witness :
  outbound_calls
    (serve_all (counting (Returned reply_text_only)) test_globals
       [request_no_history; request_refresh; request_with_history] 0).1.2 =
    [ analyze_call test_client "Set pixel clock to 148500 kHz";
      analyze_call test_client "Refresh rate is 60 Hz";
      analyze_call test_client "Set pixel clock to 148500 kHz" ]
  ∧ length
      (serve_all (counting (Returned reply_text_only)) test_globals
         [request_no_history; request_refresh; request_with_history] 0).2 = 3.
Proof.
  apply (serve_all_one_call_per_request (counting (Returned reply_text_only))
           test_globals test_client
           [request_no_history; request_refresh; request_with_history] 0).
  split; reflexivity.
Defined.

(** X12 at two requests and a constructor that raised. *)
Lemma serve_all_not_configured_witness :
  serve_all (counting (Returned reply_text_only))
    (globals_after_import test_environ failing_client)
    [request_no_history; request_refresh] 0 =
    (0, [],
     [ {| status := 500;
          body := ADict {[ "detail" := AStr not_configured_detail ]} |};
       {| status := 500;
          body := ADict {[ "detail" := AStr not_configured_detail ]} |} ]).
Proof.
  apply (serve_all_not_configured (counting (Returned reply_text_only))
           (globals_after_import test_environ failing_client)
           [request_no_history; request_refresh] 0).
  right. reflexivity.
Defined.

(** X15 at a text part, a part without the attribute, and two calls. *)
Lemma first_function_call_breaks_at_first_witness :
  first_function_call
    ([ text_part "Done";
       {| types.part_text := None; types.function_call := None |} ]
     ++ call_part pixel_clock_call :: [ call_part refresh_rate_call ]) 0 =
    {| upstream := 0;
       emitted := [Log INFO "Function call detected: updateEdidForm" false];
       outcome := Returned (Some {| name := "updateEdidForm";
                                    args := {[ "pixelClock" := AInt 148500 ]} |}) |}.
Proof.
  apply (first_function_call_breaks_at_first
           [ text_part "Done";
             {| types.part_text := None; types.function_call := None |} ]
           [ call_part refresh_rate_call ]
           (call_part pixel_clock_call) pixel_clock_call 0).
  - constructor; [right; reflexivity|].
    constructor; [left; reflexivity|]. constructor.
  - reflexivity.
Defined.
